(** * The user routes of the REST API (src/users/users.routes.ts)

    A shallow embedding of the six Express handlers registered on
    [userRouter], written over an explicit model of the JavaScript values
    they inspect, of the exceptions a store call may raise, and of the store
    calls they perform.  The handlers are embedded from the source; the
    Record Store they call ([./user.database]) is an interface here, with
    one instance modelled from the specification. *)

From Stdlib Require Import ZArith Lia.
From stdpp Require Import base option list strings gmap fin_maps infinite.

Set Warnings "-register-all".
Local Open Scope string_scope.
Local Open Scope list_scope.

(** ** JavaScript values *)

(** The values a parsed JSON body, a store result or a thrown error can be.
    The routes only test numbers for truthiness and read array lengths, so
    numbers are kept as integers plus [NaN]. *)
Inductive JsValue : Type :=
| JUndefined
| JNull
| JBool (b : bool)
| JNum (z : Z)
| JNaN
| JStr (s : string)
| JArr (items : list JsValue)
| JObj (props : list (string * JsValue)).

(** [ToBoolean]: what [!v] and [if (v)] look at.  Arrays and objects are
    truthy, the empty array included. *)
Definition truthy (v : JsValue) : bool :=
  match v with
  | JUndefined | JNull | JNaN => false
  | JBool b => b
  | JNum z => negb (z =? 0)%Z
  | JStr s => negb (String.eqb s "")
  | JArr _ | JObj _ => true
  end.

(** [!v] *)
Definition js_not (v : JsValue) : bool := negb (truthy v).

(** Reading a property of an object literal; a name that is not there reads
    as [undefined]. *)
Fixpoint lookup_prop (name : string) (props : list (string * JsValue)) : JsValue :=
  match props with
  | [] => JUndefined
  | (k, v) :: rest => if String.eqb k name then v else lookup_prop name rest
  end.

Definition TypeError (msg : string) : JsValue :=
  JObj [("name", JStr "TypeError"); ("message", JStr msg)].

(** ** Completions, the store interface and the handler monad *)

(** An awaited call either yields a value or rejects with a thrown value. *)
Inductive Completion (A : Type) : Type :=
| Normal (a : A)
| Throw (e : JsValue).
Arguments Normal {A} a.
Arguments Throw {A} e.

(** The operations of [./user.database] as the routes call them. *)
Inductive Op : Type :=
| FindAll
| FindOne (id : string)
| FindByEmail (email : JsValue)
| Create (userData : JsValue)
| Update (id : string) (updateValues : JsValue)
| Remove (id : string)
| ComparePassword (email supplied : JsValue).

Definition mutating (o : Op) : bool :=
  match o with
  | Create _ | Update _ _ | Remove _ => true
  | _ => false
  end.

(** What a handler run leaves behind, in order: each store call with how it
    completed, and each [console.log]. *)
Inductive Event : Type :=
| Called (o : Op) (r : Completion JsValue)
| Logged (v : JsValue).

(** A store: a state and the outcome of each exported function on it.
    Nothing is assumed of a function: it may throw, return any value, change
    the state. *)
Record Database (S : Type) : Type := {
  findAll : S -> Completion JsValue * S;
  findOne : string -> S -> Completion JsValue * S;
  findByEmail : JsValue -> S -> Completion JsValue * S;
  create : JsValue -> S -> Completion JsValue * S;
  update : string -> JsValue -> S -> Completion JsValue * S;
  remove : string -> S -> Completion JsValue * S;
  comparePassword : JsValue -> JsValue -> S -> Completion JsValue * S
}.
Arguments findAll {S} _ _.
Arguments findOne {S} _ _ _.
Arguments findByEmail {S} _ _ _.
Arguments create {S} _ _ _.
Arguments update {S} _ _ _ _.
Arguments remove {S} _ _ _.
Arguments comparePassword {S} _ _ _ _.

Definition run_op {S} (db : Database S) (o : Op) : S -> Completion JsValue * S :=
  match o with
  | FindAll => findAll db
  | FindOne id => findOne db id
  | FindByEmail email => findByEmail db email
  | Create userData => create db userData
  | Update id updateValues => update db id updateValues
  | Remove id => remove db id
  | ComparePassword email supplied => comparePassword db email supplied
  end.

Record World (S : Type) : Type := {
  store : S;
  events : list Event
}.
Arguments store {S} _.
Arguments events {S} _.
Arguments Build_World {S} _ _.

Definition M (S A : Type) : Type := World S -> Completion A * World S.

Definition ret {S A} (a : A) : M S A := fun w => (Normal a, w).

Definition throw {S A} (e : JsValue) : M S A := fun w => (Throw e, w).

Definition bind {S A B} (c : M S A) (k : A -> M S B) : M S B :=
  fun w =>
    match c w with
    | (Normal a, w') => k a w'
    | (Throw e, w') => (Throw e, w')
    end.

(** [try { body } catch (error) { handler }] *)
Definition try_catch {S A} (body : M S A) (handler : JsValue -> M S A) : M S A :=
  fun w =>
    match body w with
    | (Normal a, w') => (Normal a, w')
    | (Throw e, w') => handler e w'
    end.

Notation "x <- c ;; k" := (bind c (fun x => k))
  (at level 100, c at next level, right associativity).
Notation "c ;; k" := (bind c (fun _ => k))
  (at level 100, right associativity).

(** [await database.op(...)] *)
Definition await {S} (db : Database S) (o : Op) : M S JsValue :=
  fun w =>
    let '(r, s') := run_op db o (store w) in
    (r, {| store := s'; events := events w ++ [Called o r] |}).

Definition console_log {S} (v : JsValue) : M S unit :=
  fun w => (Normal tt, {| store := store w; events := events w ++ [Logged v] |}).

(** [v.length]; reading a property of [undefined] or [null] throws. *)
Definition get_length {S} (v : JsValue) : M S JsValue :=
  match v with
  | JUndefined | JNull =>
      throw (TypeError "Cannot read properties of undefined (reading 'length')")
  | JArr items => ret (JNum (Z.of_nat (length items)))
  | JStr s => ret (JNum (Z.of_nat (String.length s)))
  | JObj props => ret (lookup_prop "length" props)
  | JBool _ | JNum _ | JNaN => ret JUndefined
  end.

(** ** Requests and responses *)

(** [express.json()] and [express.urlencoded()] are mounted before the
    router, so [req.body] is an object when a handler runs; it is kept as
    its list of properties.  [req.params.id] is the path segment. *)
Record Request : Type := {
  params_id : string;
  body : list (string * JsValue)
}.

(** What [res.status(code).json(payload)] sends. *)
Record Response : Type := {
  statusCode : Z;
  payload : JsValue
}.

Module StatusCodes.
Definition OK : Z := 200.
Definition CREATED : Z := 201.
Definition BAD_REQUEST : Z := 400.
Definition NOT_FOUND : Z := 404.
Definition INTERNAL_SERVER_ERROR : Z := 500.
End StatusCodes.

Definition json {S} (code : Z) (v : JsValue) : M S Response :=
  ret {| statusCode := code; payload := v |}.

(** ** The handlers of [userRouter] *)

Section Routes.
Context {S : Type} (database : Database S).

(** [userRouter.get("/users", ...)] *)
Definition get_users (req : Request) : M S Response :=
  try_catch
    (allUsers <- await database FindAll ;;
     if js_not allUsers then
       json StatusCodes.NOT_FOUND (JObj [("msg", JStr "No users at this time..")])
     else
       total_user <- get_length allUsers ;;
       json StatusCodes.OK (JObj [("total_user", total_user); ("allUsers", allUsers)]))
    (fun error => json StatusCodes.INTERNAL_SERVER_ERROR (JObj [("error", error)])).

(** [userRouter.get("/users/:id", ...)] *)
Definition get_users_id (req : Request) : M S Response :=
  try_catch
    (user <- await database (FindOne (params_id req)) ;;
     if js_not user then
       json StatusCodes.NOT_FOUND (JObj [("error", JStr "User not found!")])
     else
       json StatusCodes.OK (JObj [("user", user)]))
    (fun error => json StatusCodes.INTERNAL_SERVER_ERROR (JObj [("error", error)])).

(** [userRouter.post("/register", ...)] *)
Definition post_register (req : Request) : M S Response :=
  try_catch
    (let username := lookup_prop "username" (body req) in
     let email := lookup_prop "email" (body req) in
     let password := lookup_prop "password" (body req) in
     if js_not username || js_not email || js_not password then
       json StatusCodes.BAD_REQUEST
         (JObj [("error", JStr "Please provide all the required parameters..")])
     else
       user <- await database (FindByEmail email) ;;
       if truthy user then
         json StatusCodes.BAD_REQUEST
           (JObj [("error", JStr "This email has already been registered..")])
       else
         newUser <- await database (Create (JObj (body req))) ;;
         json StatusCodes.CREATED (JObj [("newUser", newUser)]))
    (fun error => json StatusCodes.INTERNAL_SERVER_ERROR (JObj [("error", error)])).

(** [userRouter.post("/login", ...)] *)
Definition post_login (req : Request) : M S Response :=
  try_catch
    (let email := lookup_prop "email" (body req) in
     let password := lookup_prop "password" (body req) in
     if js_not email || js_not password then
       json StatusCodes.BAD_REQUEST
         (JObj [("error", JStr "Please provide all the required parameters..")])
     else
       user <- await database (FindByEmail email) ;;
       if js_not user then
         json StatusCodes.NOT_FOUND
           (JObj [("error", JStr "No user exists with the email provided..")])
       else
         comparePassword <- await database (ComparePassword email password) ;;
         if js_not comparePassword then
           json StatusCodes.BAD_REQUEST (JObj [("error", JStr "Incorrect Password!")])
         else
           json StatusCodes.OK (JObj [("user", user)]))
    (fun error => json StatusCodes.INTERNAL_SERVER_ERROR (JObj [("error", error)])).

(** [userRouter.put("/users/:id", ...)]: [findOne] is awaited before the
    fields are looked at. *)
Definition put_users_id (req : Request) : M S Response :=
  try_catch
    (let username := lookup_prop "username" (body req) in
     let email := lookup_prop "email" (body req) in
     let password := lookup_prop "password" (body req) in
     getUser <- await database (FindOne (params_id req)) ;;
     if js_not username || js_not email || js_not password then
       json 401 (JObj [("error", JStr "Please provide all the required parameters..")])
     else if js_not getUser then
       json 404 (JObj [("error", JStr ("No user with id " ++ params_id req))])
     else
       updateUser <- await database (Update (params_id req) (JObj (body req))) ;;
       json 201 (JObj [("updateUser", updateUser)]))
    (fun error =>
       console_log error ;;
       json 500 (JObj [("error", error)])).

(** [userRouter.delete("/users/:id", ...)] *)
Definition delete_users_id (req : Request) : M S Response :=
  try_catch
    (let id := params_id req in
     user <- await database (FindOne id) ;;
     if js_not user then
       json StatusCodes.NOT_FOUND (JObj [("error", JStr "User does not exist")])
     else
       await database (Remove id) ;;
       json StatusCodes.OK (JObj [("msg", JStr "User deleted")]))
    (fun error => json StatusCodes.INTERNAL_SERVER_ERROR (JObj [("error", error)])).

(** The six routes registered on the router, and the handler of each. *)
Inductive Route : Type :=
| GET_users
| GET_users_id
| POST_register
| POST_login
| PUT_users_id
| DELETE_users_id.

Definition userRouter (r : Route) : Request -> M S Response :=
  match r with
  | GET_users => get_users
  | GET_users_id => get_users_id
  | POST_register => post_register
  | POST_login => post_login
  | PUT_users_id => put_users_id
  | DELETE_users_id => delete_users_id
  end.

(** Running a handler on a store, with an empty event record. *)
Definition serve (r : Route) (req : Request) (s : S) : Completion Response * World S :=
  userRouter r req {| store := s; events := [] |}.
End Routes.

(** ** The Record Store *)

(** Modelled from the spec: the module [./user.database] (the Record Store
    and its Credential Check), which the routes import and which is not
    among the sources.  Section 4.1 of the specification gives its contract:
    records keyed by identifier; [findAll] returns every record, an empty
    sequence on the empty store; [findOne] is an exact-id lookup;
    [findByEmail] a linear scan with an equality match on email; [create]
    assigns a new unique id, stores the record and returns it; [update]
    replaces the mutable fields of an existing record and fails on an absent
    id; [remove] deletes the record and fails on an absent id;
    [comparePassword] looks up by email and compares the stored secret with
    the supplied one by direct equality.  Field values are unconstrained
    (section 3), so they are kept as JavaScript values. *)
Module UserDatabase.

Record User : Type := {
  id : string;
  username : JsValue;
  email : JsValue;
  password : JsValue
}.

Abbreviation Users := (gmap string User).

Definition to_js (u : User) : JsValue :=
  JObj [("id", JStr (id u)); ("username", username u);
        ("email", email u); ("password", password u)].

(** Reading a property of a value that may not be an object. *)
Definition prop (name : string) (v : JsValue) : JsValue :=
  match v with
  | JObj props => lookup_prop name props
  | _ => JUndefined
  end.

(** Direct equality ([===]) of two values held in different places:
    primitives by value, [NaN] equal to nothing, and two arrays or objects
    never the same reference. *)
Definition strict_equal (a b : JsValue) : bool :=
  match a, b with
  | JUndefined, JUndefined => true
  | JNull, JNull => true
  | JBool x, JBool y => Bool.eqb x y
  | JNum x, JNum y => (x =? y)%Z
  | JStr x, JStr y => String.eqb x y
  | _, _ => false
  end.

Definition records (users : Users) : list User := (map_to_list users).*2.

Definition scan_email (e : JsValue) (users : Users) : option User :=
  List.find (fun u => strict_equal (email u) e) (records users).

Definition of_fields (i : string) (fields : JsValue) : User :=
  {| id := i;
     username := prop "username" fields;
     email := prop "email" fields;
     password := prop "password" fields |}.

Definition findAll (users : Users) : Completion JsValue * Users :=
  (Normal (JArr (to_js <$> records users)), users).

Definition findOne (i : string) (users : Users) : Completion JsValue * Users :=
  match users !! i with
  | Some u => (Normal (to_js u), users)
  | None => (Normal JUndefined, users)
  end.

Definition findByEmail (e : JsValue) (users : Users) : Completion JsValue * Users :=
  match scan_email e users with
  | Some u => (Normal (to_js u), users)
  | None => (Normal JNull, users)
  end.

Definition create (fields : JsValue) (users : Users) : Completion JsValue * Users :=
  let i := fresh (dom users) in
  let user := of_fields i fields in
  (Normal (to_js user), <[i := user]> users).

Definition update (i : string) (fields : JsValue) (users : Users)
  : Completion JsValue * Users :=
  match users !! i with
  | Some _ =>
      let user := of_fields i fields in
      (Normal (to_js user), <[i := user]> users)
  | None => (Normal JNull, users)
  end.

Definition remove (i : string) (users : Users) : Completion JsValue * Users :=
  match users !! i with
  | Some _ => (Normal (JBool true), delete i users)
  | None => (Normal JNull, users)
  end.

Definition comparePassword (e supplied : JsValue) (users : Users)
  : Completion JsValue * Users :=
  match scan_email e users with
  | Some u => (Normal (JBool (strict_equal (password u) supplied)), users)
  | None => (Normal (JBool false), users)
  end.

Definition database : Database Users :=
  Build_Database Users findAll findOne findByEmail create update remove comparePassword.

End UserDatabase.

(** ** Vocabulary of the statements *)

(** The handler replied with this status code and payload, and returned. *)
Definition replied (code : Z) (v : JsValue) : Completion Response :=
  Normal {| statusCode := code; payload := v |}.

(** The envelope [{ error: "..." }]. *)
Definition error_body (msg : string) : JsValue := JObj [("error", JStr msg)].

(** A field of the body fails the handlers' presence test [!field]: it is
    absent, or holds a falsy value (the empty string, [null], ...). *)
Definition missing (name : string) (req : Request) : bool :=
  js_not (lookup_prop name (body req)).

(** The store calls of a run, in order. *)
Fixpoint calls (evs : list Event) : list Op :=
  match evs with
  | [] => []
  | Called o _ :: rest => o :: calls rest
  | Logged _ :: rest => calls rest
  end.

(** Some store call of the run threw [e]. *)
Definition threw (e : JsValue) (evs : list Event) : Prop :=
  exists o, In (Called o (Throw e)) evs.

(** The store's contract for its four lookups (section 4.2 of the
    specification): an operation other than [create], [update] and [remove]
    leaves the state as it was. *)
Definition read_only {S} (db : Database S) : Prop :=
  forall (o : Op) (s : S), mutating o = false -> snd (run_op db o s) = s.

(** The routes that are meant to read only. *)
Definition reading (r : Route) : bool :=
  match r with
  | GET_users | GET_users_id | POST_login => true
  | POST_register | PUT_users_id | DELETE_users_id => false
  end.

(** How many records of the modelled store carry this email. *)
Definition email_count (e : JsValue) (users : UserDatabase.Users) : nat :=
  length (List.filter (fun u => UserDatabase.strict_equal (UserDatabase.email u) e)
            (UserDatabase.records users)).

(** Two small stores to run the handlers on.  Every call of the first one
    rejects with the same error; the second one finds a user under every id
    and answers not-found to [remove]. *)
Definition failing_database (e : JsValue) : Database unit :=
  {| findAll := fun s => (Throw e, s);
     findOne := fun _ s => (Throw e, s);
     findByEmail := fun _ s => (Throw e, s);
     create := fun _ s => (Throw e, s);
     update := fun _ _ s => (Throw e, s);
     remove := fun _ s => (Throw e, s);
     comparePassword := fun _ _ s => (Throw e, s) |}.

Definition stale_database : Database unit :=
  {| findAll := fun s => (Normal (JArr []), s);
     findOne := fun i s => (Normal (JObj [("id", JStr i)]), s);
     findByEmail := fun _ s => (Normal JNull, s);
     create := fun userData s => (Normal userData, s);
     update := fun _ updateValues s => (Normal updateValues, s);
     remove := fun _ s => (Normal JNull, s);
     comparePassword := fun _ _ s => (Normal (JBool false), s) |}.

(** A registration, and the modelled store after it on the empty store. *)
Definition ann : Request :=
  {| params_id := "";
     body := [("username", JStr "ann"); ("email", JStr "ann@example.org");
              ("password", JStr "s3cret"); ("role", JStr "admin")] |}.

Definition one_user : UserDatabase.Users :=
  store (snd (serve UserDatabase.database POST_register ann ∅)).

Definition ann_record : JsValue :=
  JObj [("id", JStr "0"); ("username", JStr "ann");
        ("email", JStr "ann@example.org"); ("password", JStr "s3cret")].

(** The values [!v] holds of: what a body can carry under a field's name
    and still fail the presence test. *)
Definition falsy_values : list JsValue :=
  [JUndefined; JNull; JBool false; JNum 0; JNaN; JStr ""].

(** No store call follows a store call that threw. *)
Fixpoint stops_at_failure (evs : list Event) : bool :=
  match evs with
  | [] => true
  | Called _ (Throw _) :: rest =>
      match calls rest with
      | [] => true
      | _ :: _ => false
      end
  | _ :: rest => stops_at_failure rest
  end.

(** The status codes the handler of a route names. *)
Definition statuses (r : Route) : list Z :=
  match r with
  | GET_users | GET_users_id | DELETE_users_id => [200; 404; 500]%Z
  | POST_register => [201; 400; 500]%Z
  | POST_login => [200; 400; 404; 500]%Z
  | PUT_users_id => [201; 401; 404; 500]%Z
  end.

(** ** Proof support *)

Ltac unfold_handlers :=
  unfold serve, userRouter, get_users, get_users_id, post_register, post_login,
    put_users_id, delete_users_id, try_catch, bind, await, json, ret, throw,
    console_log, replied, error_body, missing, run_op in *;
  cbn [store events fst snd app] in *.

(** Use what is known of a test or of a store call, and run on. *)
Ltac step H := rewrite H; cbn [store events fst snd app calls negb].

(** Split on how the next store call of the run completes. *)
Ltac case_call :=
  match goal with
  | |- context [findAll ?db ?s] =>
      destruct (findAll db s) as [[?v|?e] ?s] eqn:?Hcall
  | |- context [findOne ?db ?i ?s] =>
      destruct (findOne db i s) as [[?v|?e] ?s] eqn:?Hcall
  | |- context [findByEmail ?db ?a ?s] =>
      destruct (findByEmail db a s) as [[?v|?e] ?s] eqn:?Hcall
  | |- context [create ?db ?a ?s] =>
      destruct (create db a s) as [[?v|?e] ?s] eqn:?Hcall
  | |- context [update ?db ?i ?a ?s] =>
      destruct (update db i a s) as [[?v|?e] ?s] eqn:?Hcall
  | |- context [remove ?db ?i ?s] =>
      destruct (remove db i s) as [[?v|?e] ?s] eqn:?Hcall
  | |- context [comparePassword ?db ?a ?b ?s] =>
      destruct (comparePassword db a b s) as [[?v|?e] ?s] eqn:?Hcall
  end; cbn [store events fst snd app calls negb].

(** Split on the next test of the run. *)
Ltac case_test :=
  match goal with
  | |- context [if ?b then _ else _] => destruct b eqn:?Htest
  end; cbn [store events fst snd app calls negb].

(** Split on the value whose [length] the list route reads. *)
Ltac case_length :=
  match goal with
  | Hv : js_not ?v = false |- context [get_length ?v] =>
      destruct v; try discriminate Hv; unfold get_length, ret, throw;
      cbn [store events fst snd app calls negb]
  end.

Ltac run_all := unfold_handlers; repeat first [case_call | case_test | case_length].

(** What membership in the events of a finished run says. *)
Ltac events_inv :=
  repeat match goal with
    | H : In _ (_ :: _) |- _ => destruct H as [H|H]
    | H : In _ [] |- _ => destruct H
    | H : Called _ _ = Called _ _ |- _ => inversion H; subst; clear H
    | H : Logged _ = Called _ _ |- _ => discriminate H
    | H : False |- _ => destruct H
    end.

(** In a store whose lookups are read-only, a lookup that completed left
    the state as it was. *)
Ltac lookups_keep_state Hro :=
  repeat match goal with
    | Hc : findAll ?db ?s = (_, ?s') |- _ =>
        let H := fresh in
        pose proof (Hro FindAll s eq_refl) as H; cbn in H;
        rewrite Hc in H; cbn in H; subst s'; clear Hc
    | Hc : findOne ?db ?i ?s = (_, ?s') |- _ =>
        let H := fresh in
        pose proof (Hro (FindOne i) s eq_refl) as H; cbn in H;
        rewrite Hc in H; cbn in H; subst s'; clear Hc
    | Hc : findByEmail ?db ?a ?s = (_, ?s') |- _ =>
        let H := fresh in
        pose proof (Hro (FindByEmail a) s eq_refl) as H; cbn in H;
        rewrite Hc in H; cbn in H; subst s'; clear Hc
    | Hc : comparePassword ?db ?a ?b ?s = (_, ?s') |- _ =>
        let H := fresh in
        pose proof (Hro (ComparePassword a b) s eq_refl) as H; cbn in H;
        rewrite Hc in H; cbn in H; subst s'; clear Hc
    end.

(** Read a returned response off an equation, with its status computed. *)
Ltac read_response Hresp Hstatus :=
  injection Hresp as <-; vm_compute in Hstatus; try discriminate Hstatus;
  cbn [payload statusCode].

(** Find, among the events of a finished run, the one the goal asks for. *)
Ltac find_event := cbn [In]; auto 8.

(** From a test of the run that came out false to the truthiness it read. *)
Ltac truthy_of_tests :=
  repeat match goal with
    | H : js_not ?v = false |- _ =>
        unfold js_not in H; apply negb_false_iff in H
    end.

Lemma absent_missing (name : string) (req : Request) :
  (forall k v, In (k, v) (body req) -> k <> name) -> missing name req = true.
Proof.
  unfold missing. induction (body req) as [|[k v] props IH]; intros Habs.
  - reflexivity.
  - cbn [lookup_prop]. destruct (String.eqb_spec k name) as [->|Hne].
    + exfalso. apply (Habs name v); [left; reflexivity | reflexivity].
    + apply IH. intros k' v' Hin. apply (Habs k' v'). right. exact Hin.
Qed.

Lemma nonempty_string_present (name : string) (req : Request) (s : string) :
  lookup_prop name (body req) = JStr s -> s <> "" -> missing name req = false.
Proof.
  unfold missing, js_not. intros -> Hs. cbn.
  destruct (String.eqb_spec s ""); [contradiction | reflexivity].
Qed.

(** ** GET /users *)

(** C1 (evaluated on the code): when [findAll] returns the empty sequence,
    the list route does not answer 404: an empty array is truthy, so the
    handler replies 200 with [total_user] 0 and the empty array. *)
Theorem get_users_empty_sequence {S} (db : Database S) (req : Request) (s s1 : S) :
  findAll db s = (Normal (JArr []), s1) ->
  fst (serve db GET_users req s)
  = replied 200 (JObj [("total_user", JNum 0); ("allUsers", JArr [])]).
Proof. intros Hall. unfold_handlers. rewrite Hall. reflexivity. Qed.

Lemma get_users_empty_sequence_witness :
  UserDatabase.findAll ∅ = (Normal (JArr []), ∅)
  /\ fst (serve UserDatabase.database GET_users {| params_id := ""; body := [] |} ∅)
     = replied 200 (JObj [("total_user", JNum 0); ("allUsers", JArr [])]).
Proof.
  split; [reflexivity |].
  apply (get_users_empty_sequence UserDatabase.database _ ∅ ∅). reflexivity.
Defined.

(** The other half of the list route: a sequence of [n] users is answered
    with 200, [total_user = n] and the sequence itself; 404 is the answer to
    a falsy result only. *)
Lemma get_users_sequence {S} (db : Database S) (req : Request) (s s1 : S) (users : list JsValue) :
  findAll db s = (Normal (JArr users), s1) ->
  fst (serve db GET_users req s)
  = replied 200 (JObj [("total_user", JNum (Z.of_nat (length users)));
                       ("allUsers", JArr users)]).
Proof. intros Hall. unfold_handlers. rewrite Hall. reflexivity. Qed.

Lemma get_users_not_found {S} (db : Database S) (req : Request) (s s1 : S) (v : JsValue) :
  findAll db s = (Normal v, s1) -> truthy v = false ->
  fst (serve db GET_users req s)
  = replied 404 (JObj [("msg", JStr "No users at this time..")]).
Proof.
  intros Hall Hv. unfold_handlers. rewrite Hall. unfold js_not. rewrite Hv. reflexivity.
Qed.

(** ** Lists of records of the modelled store *)

Lemma filter_length_Permutation {A} (f : A -> bool) (l1 l2 : list A) :
  l1 ≡ₚ l2 -> length (List.filter f l1) = length (List.filter f l2).
Proof.
  induction 1 as [|x l1 l2 _ IH|x y l|l1 l2 l3 _ IH1 _ IH2]; cbn.
  - reflexivity.
  - destruct (f x); cbn; congruence.
  - destruct (f x), (f y); reflexivity.
  - congruence.
Qed.

Lemma find_none_filter {A} (f : A -> bool) (l : list A) :
  List.find f l = None <-> length (List.filter f l) = 0.
Proof.
  induction l as [|x l IH]; cbn; [tauto |].
  destruct (f x); cbn; [split; discriminate | exact IH].
Qed.

Lemma fresh_id_unused (users : UserDatabase.Users) : users !! fresh (dom users) = None.
Proof. apply not_elem_of_dom, is_fresh. Qed.

Lemma records_insert_new (users : UserDatabase.Users) (i : string) (u : UserDatabase.User) :
  users !! i = None ->
  UserDatabase.records (<[i := u]> users) ≡ₚ u :: UserDatabase.records users.
Proof.
  intros Hnew. unfold UserDatabase.records.
  rewrite (map_to_list_insert users i u Hnew). reflexivity.
Qed.

Lemma scan_email_none (e : JsValue) (users : UserDatabase.Users) :
  UserDatabase.scan_email e users = None <-> email_count e users = 0.
Proof. apply find_none_filter. Qed.

Lemma email_count_create (e : JsValue) (fields : JsValue) (users : UserDatabase.Users) :
  email_count e (snd (UserDatabase.create fields users))
  = (if UserDatabase.strict_equal (UserDatabase.prop "email" fields) e then 1 else 0)
    + email_count e users.
Proof.
  unfold UserDatabase.create, email_count. cbn [snd].
  rewrite (filter_length_Permutation _ _ _
             (records_insert_new users _ _ (fresh_id_unused users))).
  cbn. destruct (UserDatabase.strict_equal _ e); reflexivity.
Qed.

(** ** POST /register *)

(** The handler against any store: the presence test comes first and calls
    nothing; then [findByEmail]; then [create] with the body. *)
Lemma post_register_run {S} (db : Database S) (req : Request) (s : S) :
  let email := lookup_prop "email" (body req) in
  let out := serve db POST_register req s in
  (missing "username" req || missing "email" req || missing "password" req = true ->
   fst out = replied 400 (error_body "Please provide all the required parameters..")
   /\ events (snd out) = [] /\ store (snd out) = s)
  /\ (missing "username" req || missing "email" req || missing "password" req = false ->
      forall user s1, findByEmail db email s = (Normal user, s1) ->
      (truthy user = true ->
       fst out = replied 400 (error_body "This email has already been registered..")
       /\ calls (events (snd out)) = [FindByEmail email]
       /\ store (snd out) = s1)
      /\ (truthy user = false ->
          forall newUser s2, create db (JObj (body req)) s1 = (Normal newUser, s2) ->
          fst out = replied 201 (JObj [("newUser", newUser)])
          /\ calls (events (snd out)) = [FindByEmail email; Create (JObj (body req))]
          /\ store (snd out) = s2)).
Proof.
  cbv zeta. split.
  - intros Hmiss. unfold_handlers. step Hmiss. auto.
  - intros Hall user s1 Hfind. split.
    + intros Huser. unfold_handlers. step Hall. step Hfind. step Huser. auto.
    + intros Huser newUser s2 Hcreate. unfold_handlers.
      step Hall. step Hfind. step Huser. step Hcreate. auto.
Qed.

(** C2: registration answers 400 to a missing field without calling the
    store; otherwise 400 to an email that [findByEmail] finds, without
    calling [create] and (on the modelled store) leaving the store and its
    records for that email as they were; otherwise it calls [create] with
    the body and answers 201 with the new user.  Registering the same email
    twice on the modelled store answers 400 the second time and leaves
    exactly one record for that email. *)
Theorem post_register_checks :
  (forall S (db : Database S) (req : Request) (s : S),
     let email := lookup_prop "email" (body req) in
     let out := serve db POST_register req s in
     (missing "username" req || missing "email" req || missing "password" req = true ->
      fst out = replied 400 (error_body "Please provide all the required parameters..")
      /\ events (snd out) = [] /\ store (snd out) = s)
     /\ (missing "username" req || missing "email" req || missing "password" req = false ->
         forall user s1, findByEmail db email s = (Normal user, s1) ->
         (truthy user = true ->
          fst out = replied 400 (error_body "This email has already been registered..")
          /\ calls (events (snd out)) = [FindByEmail email]
          /\ store (snd out) = s1)
         /\ (truthy user = false ->
             forall newUser s2, create db (JObj (body req)) s1 = (Normal newUser, s2) ->
             fst out = replied 201 (JObj [("newUser", newUser)])
             /\ calls (events (snd out)) = [FindByEmail email; Create (JObj (body req))]
             /\ store (snd out) = s2)))
  /\ (forall (req : Request) (users : UserDatabase.Users) (u : UserDatabase.User),
        let email := lookup_prop "email" (body req) in
        let out := serve UserDatabase.database POST_register req users in
        missing "username" req || missing "email" req || missing "password" req = false ->
        UserDatabase.scan_email email users = Some u ->
        fst out = replied 400 (error_body "This email has already been registered..")
        /\ store (snd out) = users
        /\ email_count email (store (snd out)) = email_count email users)
  /\ (forall (req1 req2 : Request) (users : UserDatabase.Users) (address : string),
        let out1 := serve UserDatabase.database POST_register req1 users in
        let out2 := serve UserDatabase.database POST_register req2 (store (snd out1)) in
        missing "username" req1 || missing "email" req1 || missing "password" req1 = false ->
        missing "username" req2 || missing "email" req2 || missing "password" req2 = false ->
        lookup_prop "email" (body req1) = JStr address ->
        lookup_prop "email" (body req2) = JStr address ->
        email_count (JStr address) users = 0 ->
        (exists newUser, fst out1 = replied 201 (JObj [("newUser", newUser)]))
        /\ fst out2 = replied 400 (error_body "This email has already been registered..")
        /\ email_count (JStr address) (store (snd out2)) = 1).
Proof.
  split; [intros; apply post_register_run |].
  assert (Hfound : forall (req : Request) (users : UserDatabase.Users) u,
             missing "username" req || missing "email" req || missing "password" req = false ->
             UserDatabase.scan_email (lookup_prop "email" (body req)) users = Some u ->
             fst (serve UserDatabase.database POST_register req users)
             = replied 400 (error_body "This email has already been registered..")
             /\ store (snd (serve UserDatabase.database POST_register req users)) = users).
  { intros req users u Hall Hscan.
    destruct (post_register_run UserDatabase.database req users) as [_ Hrun].
    destruct (Hrun Hall (UserDatabase.to_js u) users) as [Hdup _].
    - cbn. unfold UserDatabase.findByEmail. rewrite Hscan. reflexivity.
    - destruct (Hdup eq_refl) as (Hresp & _ & Hstore). auto. }
  split.
  - cbv zeta. intros req users u Hall Hscan.
    destruct (Hfound req users u Hall Hscan) as [Hresp Hstore].
    rewrite Hstore. auto.
  - cbv zeta. intros req1 req2 users address Hall1 Hall2 Hmail1 Hmail2 Hnone.
    assert (Hscan : UserDatabase.scan_email (JStr address) users = None)
      by (apply scan_email_none; exact Hnone).
    destruct (post_register_run UserDatabase.database req1 users) as [_ Hrun].
    destruct (Hrun Hall1 JNull users) as [_ Hnew].
    { cbn. unfold UserDatabase.findByEmail. rewrite Hmail1, Hscan. reflexivity. }
    destruct (Hnew eq_refl _ (snd (UserDatabase.create (JObj (body req1)) users)) eq_refl)
      as (Hresp1 & _ & Hstore1).
    assert (Hcount : email_count (JStr address) (store (snd (serve UserDatabase.database POST_register req1 users))) = 1).
    { rewrite Hstore1. rewrite email_count_create. cbn [UserDatabase.prop].
      rewrite Hmail1, Hnone. cbn. rewrite String.eqb_refl. reflexivity. }
    split; [eexists; exact Hresp1 |].
    destruct (UserDatabase.scan_email (JStr address)
                (store (snd (serve UserDatabase.database POST_register req1 users))))
      as [u|] eqn:Hscan2.
    + rewrite <- Hmail2 in Hscan2.
      destruct (Hfound req2 _ u Hall2 Hscan2) as [Hresp2 Hstore2].
      rewrite Hstore2. auto.
    + apply scan_email_none in Hscan2. rewrite Hcount in Hscan2. discriminate.
Qed.

(** ** POST /login *)

(** C3: login applies its checks in order: a missing email or password is
    answered 400 with no store call; an email that [findByEmail] does not
    find, 404; a [comparePassword] that is false, 400; otherwise 200 with
    the user that [findByEmail] returned.  The run calls no mutating
    operation, and leaves the state of a store whose lookups are read-only
    as it was. *)
Theorem post_login_checks {S} (db : Database S) (req : Request) (s : S) :
  let email := lookup_prop "email" (body req) in
  let password := lookup_prop "password" (body req) in
  let out := serve db POST_login req s in
  (missing "email" req || missing "password" req = true ->
   fst out = replied 400 (error_body "Please provide all the required parameters..")
   /\ events (snd out) = [])
  /\ (missing "email" req || missing "password" req = false ->
      forall user s1, findByEmail db email s = (Normal user, s1) ->
      (truthy user = false ->
       fst out = replied 404 (error_body "No user exists with the email provided..")
       /\ calls (events (snd out)) = [FindByEmail email])
      /\ (truthy user = true ->
          forall matches s2, comparePassword db email password s1 = (Normal matches, s2) ->
          calls (events (snd out)) = [FindByEmail email; ComparePassword email password]
          /\ (truthy matches = false ->
              fst out = replied 400 (error_body "Incorrect Password!"))
          /\ (truthy matches = true ->
              fst out = replied 200 (JObj [("user", user)]))))
  /\ Forall (fun o => mutating o = false) (calls (events (snd out)))
  /\ (read_only db -> store (snd out) = s).
Proof.
  cbv zeta. split; [| split; [| split]].
  - intros Hmiss. unfold_handlers. step Hmiss. auto.
  - intros Hall user s1 Hfind. split.
    + intros Huser. unfold_handlers. step Hall. step Hfind.
      unfold js_not. step Huser. auto.
    + intros Huser matches s2 Hcmp. unfold_handlers. step Hall. step Hfind.
      unfold js_not. step Huser. step Hcmp.
      split; [destruct (truthy matches); reflexivity |].
      split; intros Hm; step Hm; reflexivity.
  - run_all; repeat constructor.
  - intros Hro.
    run_all; lookups_keep_state Hro; reflexivity.
Qed.

(** ** Failures of the store *)

(** C6: on every route and for every request, the handler returns a
    response (no exception leaves it), and if a store call of the run threw
    an error the response is 500 with that very error as its payload. *)
Theorem store_failure_is_500 {S} (db : Database S) (r : Route) (req : Request) (s : S) :
  let out := serve db r req s in
  (exists response, fst out = Normal response)
  /\ (forall e, threw e (events (snd out)) ->
      fst out = replied 500 (JObj [("error", e)])).
Proof.
  cbv zeta. split.
  - destruct r; run_all; eexists; reflexivity.
  - intros e [o Hin]. revert Hin.
    destruct r; run_all; intros Hin; events_inv; reflexivity.
Qed.

(** ** Reading and writing routes *)

(** C7: the list, by-id and login routes call only lookups, whatever the
    request, and leave the state of a store whose lookups are read-only as
    it was; a mutating call can only come from the register route (a
    [create] of the body), the update route (an [update] of the id with the
    body) or the delete route (a [remove] of the id). *)
Theorem reading_routes_frame {S} (db : Database S) (r : Route) (req : Request) (s : S) :
  let out := serve db r req s in
  (reading r = true ->
   Forall (fun o => mutating o = false) (calls (events (snd out)))
   /\ (read_only db -> store (snd out) = s))
  /\ (forall o, In o (calls (events (snd out))) -> mutating o = true ->
      (r = POST_register /\ o = Create (JObj (body req)))
      \/ (r = PUT_users_id /\ o = Update (params_id req) (JObj (body req)))
      \/ (r = DELETE_users_id /\ o = Remove (params_id req))).
Proof.
  cbv zeta. split.
  - intros Hr. split.
    + destruct r; try discriminate Hr; run_all; repeat constructor.
    + intros Hro.
      destruct r; try discriminate Hr; run_all; lookups_keep_state Hro; reflexivity.
  - intros o Hin Hmut. revert Hin.
    destruct r; run_all; intros Hin;
      repeat match goal with
        | H : In _ (_ :: _) |- _ => destruct H as [H|H]
        | H : In _ [] |- _ => destruct H
        end; subst o; try discriminate Hmut; auto.
Qed.

(** C9: whatever properties the body has, a [create] called by the register
    route and an [update] called by the update route receive the request
    body itself, never a projection of it; and both calls do happen once
    the checks pass. *)
Theorem body_passed_unfiltered {S} (db : Database S) (req : Request) (s : S) :
  (forall userData r,
     In (Called (Create userData) r) (events (snd (serve db POST_register req s))) ->
     userData = JObj (body req))
  /\ (forall i updateValues r,
       In (Called (Update i updateValues) r) (events (snd (serve db PUT_users_id req s))) ->
       i = params_id req /\ updateValues = JObj (body req))
  /\ (missing "username" req || missing "email" req || missing "password" req = false ->
      (forall user s1,
         findByEmail db (lookup_prop "email" (body req)) s = (Normal user, s1) ->
         truthy user = false ->
         In (Create (JObj (body req))) (calls (events (snd (serve db POST_register req s)))))
      /\ (forall getUser s1,
            findOne db (params_id req) s = (Normal getUser, s1) ->
            truthy getUser = true ->
            In (Update (params_id req) (JObj (body req)))
              (calls (events (snd (serve db PUT_users_id req s)))))).
Proof.
  split; [| split].
  - intros userData r. run_all; intros Hin; events_inv; reflexivity.
  - intros i updateValues r. run_all; intros Hin; events_inv; auto.
  - intros Hall. split.
    + intros user s1 Hfind Huser. unfold_handlers.
      step Hall. step Hfind. step Huser. case_call; cbn; auto.
    + intros getUser s1 Hfind Huser. unfold_handlers.
      step Hfind. step Hall. unfold js_not. step Huser. case_call; cbn; auto.
Qed.

(** ** DELETE /users/:id *)

(** C10: once [findOne] has found a user, the delete route answers 200 with
    the deletion message whatever value [remove] returns; only a [remove]
    that throws changes the answer, to 500 with the error. *)
Theorem delete_ignores_remove_result {S} (db : Database S) (req : Request)
    (s s1 : S) (user : JsValue) :
  findOne db (params_id req) s = (Normal user, s1) ->
  truthy user = true ->
  (forall result s2,
     remove db (params_id req) s1 = (Normal result, s2) ->
     fst (serve db DELETE_users_id req s) = replied 200 (JObj [("msg", JStr "User deleted")]))
  /\ (forall e s2,
       remove db (params_id req) s1 = (Throw e, s2) ->
       fst (serve db DELETE_users_id req s) = replied 500 (JObj [("error", e)])).
Proof.
  intros Hfind Huser. split.
  - intros result s2 Hrem. unfold_handlers. step Hfind. unfold js_not. step Huser.
    step Hrem. reflexivity.
  - intros e s2 Hrem. unfold_handlers. step Hfind. unfold js_not. step Huser.
    step Hrem. reflexivity.
Qed.

Lemma delete_ignores_remove_result_witness :
  fst (serve stale_database DELETE_users_id {| params_id := "7"; body := [] |} tt)
  = replied 200 (JObj [("msg", JStr "User deleted")]).
Proof.
  refine (proj1 (delete_ignores_remove_result stale_database
                   {| params_id := "7"; body := [] |} tt tt
                   (JObj [("id", JStr "7")]) _ _) JNull tt _); reflexivity.
Defined.

Lemma size_delete_found (users : UserDatabase.Users) (i : string) (u : UserDatabase.User) :
  users !! i = Some u -> S (size (delete i users)) = size users.
Proof.
  intros Hfound.
  rewrite <- (map_size_insert_None i u (delete i users)) by apply lookup_delete_eq.
  rewrite insert_delete_eq, insert_id; [reflexivity | exact Hfound].
Qed.

(** The delete route against any store, given what [findOne] returned. *)
Lemma delete_users_id_run {S} (db : Database S) (req : Request)
    (s s1 : S) (user : JsValue) :
  findOne db (params_id req) s = (Normal user, s1) ->
  let out := serve db DELETE_users_id req s in
  (truthy user = false ->
   fst out = replied 404 (error_body "User does not exist")
   /\ calls (events (snd out)) = [FindOne (params_id req)]
   /\ store (snd out) = s1)
  /\ (truthy user = true ->
      forall result s2, remove db (params_id req) s1 = (Normal result, s2) ->
      fst out = replied 200 (JObj [("msg", JStr "User deleted")])
      /\ calls (events (snd out)) = [FindOne (params_id req); Remove (params_id req)]
      /\ store (snd out) = s2).
Proof.
  intros Hfind. cbv zeta. split.
  - intros Huser. unfold_handlers. step Hfind. unfold js_not. step Huser. auto.
  - intros Huser result s2 Hrem. unfold_handlers. step Hfind. unfold js_not.
    step Huser. step Hrem. auto.
Qed.

(** C5: when [findOne] finds no user the delete route answers 404 without
    calling [remove], and the modelled store keeps its size; when it finds
    one the route calls [remove] with the id and answers 200 with a
    message, and the modelled store loses that record and no other. *)
Theorem delete_users_id_checks :
  (forall S (db : Database S) (req : Request) (s s1 : S) (user : JsValue),
     findOne db (params_id req) s = (Normal user, s1) ->
     let out := serve db DELETE_users_id req s in
     (truthy user = false ->
      fst out = replied 404 (error_body "User does not exist")
      /\ calls (events (snd out)) = [FindOne (params_id req)]
      /\ store (snd out) = s1)
     /\ (truthy user = true ->
         forall result s2, remove db (params_id req) s1 = (Normal result, s2) ->
         fst out = replied 200 (JObj [("msg", JStr "User deleted")])
         /\ calls (events (snd out)) = [FindOne (params_id req); Remove (params_id req)]
         /\ store (snd out) = s2))
  /\ (forall (req : Request) (users : UserDatabase.Users),
        let out := serve UserDatabase.database DELETE_users_id req users in
        (users !! params_id req = None ->
         fst out = replied 404 (error_body "User does not exist")
         /\ calls (events (snd out)) = [FindOne (params_id req)]
         /\ store (snd out) = users
         /\ size (store (snd out)) = size users)
        /\ (forall u, users !! params_id req = Some u ->
            fst out = replied 200 (JObj [("msg", JStr "User deleted")])
            /\ calls (events (snd out)) = [FindOne (params_id req); Remove (params_id req)]
            /\ store (snd out) = delete (params_id req) users
            /\ S (size (store (snd out))) = size users
            /\ forall j, j <> params_id req -> store (snd out) !! j = users !! j)).
Proof.
  split; [intros; apply delete_users_id_run; assumption |].
  cbv zeta. intros req users. split.
  - intros Hnone.
    destruct (delete_users_id_run UserDatabase.database req users users JUndefined)
      as [Hmiss _].
    { cbn. unfold UserDatabase.findOne. rewrite Hnone. reflexivity. }
    destruct (Hmiss eq_refl) as (Hresp & Hcalls & Hstore).
    rewrite Hstore. auto.
  - intros u Hsome.
    destruct (delete_users_id_run UserDatabase.database req users users
                (UserDatabase.to_js u)) as [_ Hhit].
    { cbn. unfold UserDatabase.findOne. rewrite Hsome. reflexivity. }
    destruct (Hhit eq_refl (JBool true) (delete (params_id req) users))
      as (Hresp & Hcalls & Hstore).
    { cbn. unfold UserDatabase.remove. rewrite Hsome. reflexivity. }
    rewrite Hstore. repeat split; auto.
    + apply (size_delete_found users _ u Hsome).
    + intros j Hj. apply lookup_delete_ne. congruence.
Qed.

(** ** PUT /users/:id *)

(** The update route against any store, given what [findOne], which is
    awaited first, returned. *)
Lemma put_users_id_run {S} (db : Database S) (req : Request)
    (s s1 : S) (getUser : JsValue) :
  findOne db (params_id req) s = (Normal getUser, s1) ->
  let out := serve db PUT_users_id req s in
  (missing "username" req || missing "email" req || missing "password" req = true ->
   fst out = replied 401 (error_body "Please provide all the required parameters..")
   /\ calls (events (snd out)) = [FindOne (params_id req)]
   /\ store (snd out) = s1)
  /\ (missing "username" req || missing "email" req || missing "password" req = false ->
      (truthy getUser = false ->
       fst out = replied 404 (error_body ("No user with id " ++ params_id req))
       /\ calls (events (snd out)) = [FindOne (params_id req)]
       /\ store (snd out) = s1)
      /\ (truthy getUser = true ->
          forall updateUser s2,
            update db (params_id req) (JObj (body req)) s1 = (Normal updateUser, s2) ->
            fst out = replied 201 (JObj [("updateUser", updateUser)])
            /\ calls (events (snd out))
               = [FindOne (params_id req); Update (params_id req) (JObj (body req))]
            /\ store (snd out) = s2)).
Proof.
  intros Hfind. cbv zeta. split.
  - intros Hmiss. unfold_handlers. step Hfind. step Hmiss. auto.
  - intros Hall. split.
    + intros Huser. unfold_handlers. step Hfind. step Hall. unfold js_not.
      step Huser. auto.
    + intros Huser updateUser s2 Hupd. unfold_handlers. step Hfind. step Hall.
      unfold js_not. step Huser. step Hupd. auto.
Qed.

(** C4: barring a failure of the store (the route awaits [findOne] before
    it looks at the fields), the update route answers 401 to a missing
    field without calling [update]; otherwise 404 to an id that [findOne]
    does not find, without calling [update], and the modelled store is as
    it was, with no record created; otherwise it calls [update] with the id
    and the body and answers 201 with the updated user, and the modelled
    store holds under that id a record with the username, email and
    password of the body, every other record untouched. *)
Theorem put_users_id_checks :
  (forall S (db : Database S) (req : Request) (s s1 : S) (getUser : JsValue),
     findOne db (params_id req) s = (Normal getUser, s1) ->
     let out := serve db PUT_users_id req s in
     (missing "username" req || missing "email" req || missing "password" req = true ->
      fst out = replied 401 (error_body "Please provide all the required parameters..")
      /\ calls (events (snd out)) = [FindOne (params_id req)]
      /\ store (snd out) = s1)
     /\ (missing "username" req || missing "email" req || missing "password" req = false ->
         (truthy getUser = false ->
          fst out = replied 404 (error_body ("No user with id " ++ params_id req))
          /\ calls (events (snd out)) = [FindOne (params_id req)]
          /\ store (snd out) = s1)
         /\ (truthy getUser = true ->
             forall updateUser s2,
               update db (params_id req) (JObj (body req)) s1 = (Normal updateUser, s2) ->
               fst out = replied 201 (JObj [("updateUser", updateUser)])
               /\ calls (events (snd out))
                  = [FindOne (params_id req); Update (params_id req) (JObj (body req))]
               /\ store (snd out) = s2)))
  /\ (forall (req : Request) (users : UserDatabase.Users),
        let out := serve UserDatabase.database PUT_users_id req users in
        (missing "username" req || missing "email" req || missing "password" req = true ->
         fst out = replied 401 (error_body "Please provide all the required parameters..")
         /\ store (snd out) = users)
        /\ (missing "username" req || missing "email" req || missing "password" req = false ->
            (users !! params_id req = None ->
             fst out = replied 404 (error_body ("No user with id " ++ params_id req))
             /\ store (snd out) = users)
            /\ (forall old, users !! params_id req = Some old ->
                let new := {| UserDatabase.id := params_id req;
                              UserDatabase.username := lookup_prop "username" (body req);
                              UserDatabase.email := lookup_prop "email" (body req);
                              UserDatabase.password := lookup_prop "password" (body req) |} in
                fst out = replied 201 (JObj [("updateUser", UserDatabase.to_js new)])
                /\ store (snd out) = <[params_id req := new]> users
                /\ store (snd out) !! params_id req = Some new
                /\ (forall j, j <> params_id req -> store (snd out) !! j = users !! j)
                /\ size (store (snd out)) = size users))).
Proof.
  split; [intros; apply put_users_id_run; assumption |].
  cbv zeta. intros req users.
  destruct (users !! params_id req) as [old|] eqn:Hlook.
  - destruct (put_users_id_run UserDatabase.database req users users
                (UserDatabase.to_js old)) as [Hmiss Hall].
    { cbn. unfold UserDatabase.findOne. rewrite Hlook. reflexivity. }
    split.
    + intros Hm. destruct (Hmiss Hm) as (Hresp & _ & Hstore). auto.
    + intros Ha. destruct (Hall Ha) as [_ Hhit]. split; [discriminate |].
      intros old' _.
      destruct (Hhit eq_refl _ _
                  ltac:(cbn; unfold UserDatabase.update; rewrite Hlook; reflexivity))
        as (Hresp & _ & Hstore).
      rewrite Hstore. repeat split.
      * exact Hresp.
      * apply lookup_insert_eq.
      * intros j Hj. apply lookup_insert_ne. congruence.
      * apply map_size_insert_Some. rewrite Hlook. eauto.
  - destruct (put_users_id_run UserDatabase.database req users users JUndefined)
      as [Hmiss Hall].
    { cbn. unfold UserDatabase.findOne. rewrite Hlook. reflexivity. }
    split.
    + intros Hm. destruct (Hmiss Hm) as (Hresp & _ & Hstore). auto.
    + intros Ha. destruct (Hall Ha) as [Habsent _]. split; [| discriminate].
      intros _. destruct (Habsent eq_refl) as (Hresp & _ & Hstore). auto.
Qed.

(** The order of the update route shows when the store fails: [findOne] is
    awaited before the fields are tested, so its failure is answered 500
    even for an empty body. *)
Lemma put_users_id_looks_up_first (e : JsValue) (i : string) :
  fst (serve (failing_database e) PUT_users_id {| params_id := i; body := [] |} tt)
  = replied 500 (JObj [("error", e)]).
Proof. reflexivity. Qed.

(** ** GET /users/:id, and registering then fetching *)

(** The by-id route against any store: 404 to an id that [findOne] does not
    find, 200 with the user otherwise. *)
Lemma get_users_id_run {S} (db : Database S) (req : Request) (s s1 : S) (user : JsValue) :
  findOne db (params_id req) s = (Normal user, s1) ->
  fst (serve db GET_users_id req s)
  = if truthy user then replied 200 (JObj [("user", user)])
    else replied 404 (error_body "User not found!").
Proof.
  intros Hfind. unfold_handlers. step Hfind. unfold js_not.
  destruct (truthy user); reflexivity.
Qed.

(** C8: on the modelled store, a registration with the three fields present
    and an email not yet registered answers 201 with a record carrying an
    id, and fetching by that id then answers 200 with a user whose
    username, email and password are the values of the registration. *)
Theorem register_then_fetch (req : Request) (users : UserDatabase.Users) :
  missing "username" req || missing "email" req || missing "password" req = false ->
  UserDatabase.scan_email (lookup_prop "email" (body req)) users = None ->
  let out := serve UserDatabase.database POST_register req users in
  exists (i : string) (newUser : JsValue),
    fst out = replied 201 (JObj [("newUser", newUser)])
    /\ UserDatabase.prop "id" newUser = JStr i
    /\ forall anybody, exists user,
         fst (serve UserDatabase.database GET_users_id
                {| params_id := i; body := anybody |} (store (snd out)))
         = replied 200 (JObj [("user", user)])
         /\ user = newUser
         /\ UserDatabase.prop "username" user = lookup_prop "username" (body req)
         /\ UserDatabase.prop "email" user = lookup_prop "email" (body req)
         /\ UserDatabase.prop "password" user = lookup_prop "password" (body req).
Proof.
  intros Hall Hscan. cbv zeta.
  destruct (post_register_run UserDatabase.database req users) as [_ Hrun].
  destruct (Hrun Hall JNull users) as [_ Hnew].
  { cbn. unfold UserDatabase.findByEmail. rewrite Hscan. reflexivity. }
  destruct (Hnew eq_refl _ (snd (UserDatabase.create (JObj (body req)) users)) eq_refl)
    as (Hresp & _ & Hstore).
  exists (fresh (dom users)), (UserDatabase.to_js
                                 (UserDatabase.of_fields (fresh (dom users)) (JObj (body req)))).
  split; [exact Hresp |]. split; [reflexivity |].
  intros anybody. eexists. rewrite Hstore.
  split; [| split; [reflexivity | repeat split]].
  rewrite (get_users_id_run UserDatabase.database _ _
             (snd (UserDatabase.create (JObj (body req)) users))
             (UserDatabase.to_js
                (UserDatabase.of_fields (fresh (dom users)) (JObj (body req))))).
  - reflexivity.
  - cbn [findOne UserDatabase.database params_id].
    unfold UserDatabase.findOne, UserDatabase.create. cbn [snd].
    rewrite lookup_insert_eq. reflexivity.
Qed.

(** ** The handlers at work on the modelled store *)

Lemma UserDatabase_read_only : read_only UserDatabase.database.
Proof.
  intros o users Hread. destruct o; try discriminate Hread; cbn.
  - reflexivity.
  - unfold UserDatabase.findOne. destruct (users !! id); reflexivity.
  - unfold UserDatabase.findByEmail. destruct (UserDatabase.scan_email _ _); reflexivity.
  - unfold UserDatabase.comparePassword.
    destruct (UserDatabase.scan_email _ _); reflexivity.
Qed.

Lemma post_register_checks_witness :
  fst (serve UserDatabase.database POST_register
         {| params_id := ""; body := [("email", JStr "ann@example.org")] |} one_user)
  = replied 400 (error_body "Please provide all the required parameters..")
  /\ (exists newUser,
        fst (serve UserDatabase.database POST_register ann ∅)
        = replied 201 (JObj [("newUser", newUser)]))
  /\ fst (serve UserDatabase.database POST_register ann one_user)
     = replied 400 (error_body "This email has already been registered..")
  /\ email_count (JStr "ann@example.org")
       (store (snd (serve UserDatabase.database POST_register ann one_user))) = 1.
Proof.
  destruct post_register_checks as (Hany & _ & Htwice). split.
  - apply (Hany _ UserDatabase.database
             {| params_id := ""; body := [("email", JStr "ann@example.org")] |} one_user).
    reflexivity.
  - apply (Htwice ann ann ∅ "ann@example.org"); reflexivity.
Defined.

Lemma post_login_checks_witness :
  fst (serve UserDatabase.database POST_login ann one_user)
  = replied 200 (JObj [("user", ann_record)])
  /\ store (snd (serve UserDatabase.database POST_login ann one_user)) = one_user.
Proof.
  destruct (post_login_checks UserDatabase.database ann one_user)
    as (_ & Hpresent & _ & Hframe).
  split.
  - destruct (Hpresent eq_refl ann_record one_user eq_refl) as [_ Hfound].
    destruct (Hfound eq_refl (JBool true) one_user eq_refl) as (_ & _ & Hok).
    exact (Hok eq_refl).
  - exact (Hframe UserDatabase_read_only).
Defined.

Lemma put_users_id_checks_witness :
  fst (serve UserDatabase.database PUT_users_id
         {| params_id := "0"; body := [("username", JStr "ann")] |} one_user)
  = replied 401 (error_body "Please provide all the required parameters..")
  /\ fst (serve UserDatabase.database PUT_users_id
            {| params_id := "9"; body := body ann |} one_user)
     = replied 404 (error_body "No user with id 9")
  /\ store (snd (serve UserDatabase.database PUT_users_id
                   {| params_id := "9"; body := body ann |} one_user)) = one_user
  /\ fst (serve UserDatabase.database PUT_users_id
            {| params_id := "0";
               body := [("username", JStr "anna"); ("email", JStr "anna@example.org");
                        ("password", JStr "hunter2")] |} one_user)
     = replied 201
         (JObj [("updateUser",
                 JObj [("id", JStr "0"); ("username", JStr "anna");
                       ("email", JStr "anna@example.org");
                       ("password", JStr "hunter2")])]).
Proof.
  destruct put_users_id_checks as [_ Hstore]. split; [| split; [| split]].
  - apply (Hstore {| params_id := "0"; body := [("username", JStr "ann")] |} one_user).
    reflexivity.
  - apply (Hstore {| params_id := "9"; body := body ann |} one_user);
      reflexivity.
  - apply (Hstore {| params_id := "9"; body := body ann |} one_user);
      reflexivity.
  - refine (proj1 (proj2 (proj2 (Hstore
              {| params_id := "0";
                 body := [("username", JStr "anna"); ("email", JStr "anna@example.org");
                          ("password", JStr "hunter2")] |} one_user) eq_refl)
              (UserDatabase.of_fields "0" ann_record) _)).
    reflexivity.
Defined.

Lemma delete_users_id_checks_witness :
  fst (serve UserDatabase.database DELETE_users_id {| params_id := "9"; body := [] |} one_user)
  = replied 404 (error_body "User does not exist")
  /\ size (store (snd (serve UserDatabase.database DELETE_users_id
                         {| params_id := "9"; body := [] |} one_user))) = 1
  /\ fst (serve UserDatabase.database DELETE_users_id {| params_id := "0"; body := [] |} one_user)
     = replied 200 (JObj [("msg", JStr "User deleted")])
  /\ size (store (snd (serve UserDatabase.database DELETE_users_id
                         {| params_id := "0"; body := [] |} one_user))) = 0.
Proof.
  destruct delete_users_id_checks as [_ Hstore].
  destruct (Hstore {| params_id := "9"; body := [] |} one_user) as [Habsent _].
  destruct (Hstore {| params_id := "0"; body := [] |} one_user) as [_ Hfound].
  destruct (Habsent eq_refl) as (Hresp & _ & _ & Hsize).
  destruct (Hfound (UserDatabase.of_fields "0" ann_record) eq_refl)
    as (Hresp' & _ & _ & Hsize' & _).
  split; [exact Hresp |]. split; [rewrite Hsize; reflexivity |].
  split; [exact Hresp' |].
  apply eq_add_S. rewrite Hsize'. reflexivity.
Defined.

Lemma reading_routes_frame_witness :
  store (snd (serve UserDatabase.database GET_users ann one_user)) = one_user
  /\ store (snd (serve UserDatabase.database GET_users_id ann one_user)) = one_user
  /\ store (snd (serve UserDatabase.database POST_login ann one_user)) = one_user.
Proof.
  split; [| split].
  - exact (proj2 (proj1 (reading_routes_frame UserDatabase.database GET_users ann one_user)
                    eq_refl) UserDatabase_read_only).
  - exact (proj2 (proj1 (reading_routes_frame UserDatabase.database GET_users_id ann one_user)
                    eq_refl) UserDatabase_read_only).
  - exact (proj2 (proj1 (reading_routes_frame UserDatabase.database POST_login ann one_user)
                    eq_refl) UserDatabase_read_only).
Defined.

Lemma register_then_fetch_witness :
  exists user,
    fst (serve UserDatabase.database GET_users_id {| params_id := "0"; body := [] |} one_user)
    = replied 200 (JObj [("user", user)])
    /\ UserDatabase.prop "username" user = JStr "ann"
    /\ UserDatabase.prop "email" user = JStr "ann@example.org"
    /\ UserDatabase.prop "password" user = JStr "s3cret".
Proof.
  assert (Hnew : UserDatabase.scan_email (lookup_prop "email" (body ann)) ∅ = None)
    by reflexivity.
  destruct (register_then_fetch ann ∅ eq_refl Hnew)
    as (i & newUser & Hresp & Hid & Hfetch).
  vm_compute in Hresp. injection Hresp as <-.
  cbn in Hid. injection Hid as <-.
  destruct (Hfetch []) as (user & Hget & _ & Hname & Hmail & Hpass).
  exists user. repeat split; assumption.
Defined.

Lemma body_passed_unfiltered_witness :
  In (Create (JObj (body ann)))
    (calls (events (snd (serve UserDatabase.database POST_register ann ∅))))
  /\ In (Update "0" (JObj (body ann)))
       (calls (events (snd (serve UserDatabase.database PUT_users_id
                              {| params_id := "0"; body := body ann |} one_user)))).
Proof.
  split.
  - exact (proj1 (proj2 (proj2 (body_passed_unfiltered UserDatabase.database ann ∅))
                    eq_refl) JNull ∅ eq_refl eq_refl).
  - exact (proj2 (proj2 (proj2 (body_passed_unfiltered UserDatabase.database
                                  {| params_id := "0"; body := body ann |} one_user))
                    eq_refl) ann_record one_user eq_refl eq_refl).
Defined.

Lemma store_failure_is_500_witness :
  fst (serve (failing_database (TypeError "connection lost")) DELETE_users_id
         {| params_id := "0"; body := [] |} tt)
  = replied 500 (JObj [("error", TypeError "connection lost")]).
Proof.
  apply (store_failure_is_500 (failing_database (TypeError "connection lost"))
           DELETE_users_id {| params_id := "0"; body := [] |} tt).
  exists (FindOne "0"). left. reflexivity.
Defined.

(** ** Further properties of the handlers *)

Lemma truthy_false_iff (v : JsValue) : truthy v = false <-> In v falsy_values.
Proof.
  unfold falsy_values. split.
  - destruct v as [| |b|z| |str| |]; cbn; intros Hv; try discriminate Hv; auto 7.
    + destruct b; [discriminate Hv | auto].
    + destruct (Z.eqb_spec z 0); [subst; auto 7 | discriminate Hv].
    + destruct (String.eqb_spec str ""); [subst; auto 7 | discriminate Hv].
  - intros Hin. cbn in Hin.
    repeat match goal with H : _ \/ _ |- _ => destruct H as [H|H] end;
      subst; try reflexivity; contradiction.
Qed.

(** X1: the by-id route makes one store call, [findOne] with the id of the
    path, whatever the body; it answers 404 when the result is falsy and 200
    with the result as [user] otherwise. *)
Theorem get_users_id_checks {S} (db : Database S) (req : Request) (s s1 : S)
    (user : JsValue) :
  findOne db (params_id req) s = (Normal user, s1) ->
  let out := serve db GET_users_id req s in
  fst out = (if truthy user then replied 200 (JObj [("user", user)])
             else replied 404 (error_body "User not found!"))
  /\ events (snd out) = [Called (FindOne (params_id req)) (Normal user)]
  /\ store (snd out) = s1.
Proof.
  intros Hfind. cbv zeta. unfold_handlers. step Hfind. unfold js_not.
  destruct (truthy user); auto.
Qed.

Lemma get_users_id_checks_witness :
  fst (serve UserDatabase.database GET_users_id {| params_id := "0"; body := [] |} one_user)
  = replied 200 (JObj [("user", ann_record)])
  /\ fst (serve UserDatabase.database GET_users_id {| params_id := "1"; body := [] |} one_user)
     = replied 404 (error_body "User not found!").
Proof.
  split.
  - refine (proj1 (get_users_id_checks UserDatabase.database
                     {| params_id := "0"; body := [] |} one_user one_user ann_record _)).
    reflexivity.
  - refine (proj1 (get_users_id_checks UserDatabase.database
                     {| params_id := "1"; body := [] |} one_user one_user JUndefined _)).
    reflexivity.
Defined.

(** X2: the list route answers 404 exactly when [findAll] resolves to a
    falsy value; for every truthy value, an array of any length included,
    it answers 200 with that value as [allUsers], and reading its [length]
    never throws. *)
Theorem get_users_answers {S} (db : Database S) (req : Request) (s s1 : S) (v : JsValue) :
  findAll db s = (Normal v, s1) ->
  let out := serve db GET_users req s in
  (truthy v = false ->
   fst out = replied 404 (JObj [("msg", JStr "No users at this time..")]))
  /\ (truthy v = true ->
      exists total_user,
        fst out = replied 200 (JObj [("total_user", total_user); ("allUsers", v)])
        /\ forall users, v = JArr users -> total_user = JNum (Z.of_nat (length users)))
  /\ events (snd out) = [Called FindAll (Normal v)].
Proof.
  intros Hall. cbv zeta. unfold_handlers. step Hall. unfold js_not. repeat split.
  - intros Hv. step Hv. reflexivity.
  - intros Hv. step Hv.
    destruct v; try discriminate Hv; cbn; eexists;
      (split; [reflexivity | intros users Hu; now inversion Hu]).
  - destruct v as [| |b|z| |str| |]; cbn; try reflexivity.
    + destruct b; reflexivity.
    + destruct (z =? 0)%Z; reflexivity.
    + destruct (String.eqb str ""); reflexivity.
Qed.

Lemma get_users_answers_witness :
  (exists total_user,
     fst (serve UserDatabase.database GET_users ann one_user)
     = replied 200 (JObj [("total_user", total_user); ("allUsers", JArr [ann_record])])
     /\ total_user = JNum 1)
  /\ fst (serve stale_database GET_users ann tt)
     = replied 200 (JObj [("total_user", JNum 0); ("allUsers", JArr [])]).
Proof.
  split.
  - destruct (get_users_answers UserDatabase.database ann one_user one_user
                (JArr [ann_record]) eq_refl) as (_ & Hok & _).
    destruct (Hok eq_refl) as (total & Hresp & Hlen).
    exists total. split; [exact Hresp | exact (Hlen [ann_record] eq_refl)].
  - destruct (get_users_answers stale_database ann tt tt (JArr []) eq_refl)
      as (_ & Hok & _).
    destruct (Hok eq_refl) as (total & Hresp & Hlen).
    rewrite Hresp, (Hlen [] eq_refl). reflexivity.
Defined.

(** X3: on every route a 500 comes from the store only: if the status is
    500, some store call of the run threw, and the payload carries that
    error. *)
Theorem server_error_only_from_store {S} (db : Database S) (r : Route) (req : Request)
    (s : S) (response : Response) :
  fst (serve db r req s) = Normal response ->
  statusCode response = 500%Z ->
  exists e, threw e (events (snd (serve db r req s)))
            /\ payload response = JObj [("error", e)].
Proof.
  destruct r; run_all; intros Hresp Hstatus; read_response Hresp Hstatus;
    match goal with
    | |- exists _, _ /\ JObj [(_, ?e)] = _ =>
        exists e; split; [eexists; find_event | reflexivity]
    end.
Qed.

Lemma server_error_only_from_store_witness :
  exists e,
    threw e (events (snd (serve (failing_database JNull) POST_login ann tt)))
    /\ JObj [("error", JNull)] = JObj [("error", e)].
Proof.
  exact (server_error_only_from_store (failing_database JNull) POST_login ann tt
           {| statusCode := 500; payload := JObj [("error", JNull)] |} eq_refl eq_refl).
Defined.

(** X4: on every route the run ends at the first store call that throws: no
    store call follows it. *)
Theorem failure_stops_the_run {S} (db : Database S) (r : Route) (req : Request) (s : S) :
  stops_at_failure (events (snd (serve db r req s))) = true.
Proof. destruct r; run_all; reflexivity. Qed.

(** X5: a request costs at most two store calls: exactly one on the two GET
    routes, one or two on the update and delete routes, and none to two on
    the register and login routes. *)
Theorem store_calls_bounded {S} (db : Database S) (r : Route) (req : Request) (s : S) :
  let n := length (calls (events (snd (serve db r req s)))) in
  match r with
  | GET_users | GET_users_id => n = 1
  | PUT_users_id | DELETE_users_id => 1 <= n <= 2
  | POST_register | POST_login => n <= 2
  end.
Proof. cbv zeta. destruct r; run_all; cbn; lia. Qed.

(** X6: a required field that the body carries as [""], [0], [false],
    [null] or [NaN], or does not carry, is refused like a missing one: 400
    on the register and login routes with no store call, 401 on the update
    route once [findOne] has returned, with no [update]. *)
Theorem falsy_field_is_refused {S} (db : Database S) (req : Request) (s : S)
    (name : string) :
  In (lookup_prop name (body req)) falsy_values ->
  (In name ["username"; "email"; "password"] ->
   fst (serve db POST_register req s)
   = replied 400 (error_body "Please provide all the required parameters..")
   /\ events (snd (serve db POST_register req s)) = [])
  /\ (In name ["email"; "password"] ->
      fst (serve db POST_login req s)
      = replied 400 (error_body "Please provide all the required parameters..")
      /\ events (snd (serve db POST_login req s)) = [])
  /\ (In name ["username"; "email"; "password"] ->
      forall getUser s1, findOne db (params_id req) s = (Normal getUser, s1) ->
      fst (serve db PUT_users_id req s)
      = replied 401 (error_body "Please provide all the required parameters..")
      /\ calls (events (snd (serve db PUT_users_id req s))) = [FindOne (params_id req)]).
Proof.
  intros Hfalsy. apply truthy_false_iff in Hfalsy.
  assert (Hnot : js_not (lookup_prop name (body req)) = true)
    by (unfold js_not; rewrite Hfalsy; reflexivity).
  split; [| split].
  - intros Hname.
    assert (Hmiss : missing "username" req || missing "email" req
                    || missing "password" req = true).
    { unfold missing. cbn in Hname.
      destruct Hname as [<-|[<-|[<-|[]]]]; rewrite Hnot;
        repeat rewrite ?orb_true_r, ?orb_true_l; reflexivity. }
    destruct (post_register_run db req s) as [Hrun _].
    destruct (Hrun Hmiss) as (Hresp & Hevents & _). auto.
  - intros Hname. unfold_handlers.
    assert (Hmiss : js_not (lookup_prop "email" (body req))
                    || js_not (lookup_prop "password" (body req)) = true).
    { cbn in Hname. destruct Hname as [<-|[<-|[]]]; rewrite Hnot;
        repeat rewrite ?orb_true_r, ?orb_true_l; reflexivity. }
    step Hmiss. auto.
  - intros Hname getUser s1 Hfind.
    assert (Hmiss : missing "username" req || missing "email" req
                    || missing "password" req = true).
    { unfold missing. cbn in Hname.
      destruct Hname as [<-|[<-|[<-|[]]]]; rewrite Hnot;
        repeat rewrite ?orb_true_r, ?orb_true_l; reflexivity. }
    destruct (put_users_id_run db req s s1 getUser Hfind) as [Hrun _].
    destruct (Hrun Hmiss) as (Hresp & Hcalls & _). auto.
Qed.

Lemma falsy_field_is_refused_witness :
  fst (serve UserDatabase.database POST_register
         {| params_id := "";
            body := [("username", JStr "bob"); ("email", JStr "bob@example.org");
                     ("password", JNum 0)] |} one_user)
  = replied 400 (error_body "Please provide all the required parameters..")
  /\ fst (serve UserDatabase.database POST_login
            {| params_id := "";
               body := [("email", JStr "bob@example.org"); ("password", JStr "")] |} one_user)
     = replied 400 (error_body "Please provide all the required parameters..").
Proof.
  split.
  - refine (proj1 (proj1 (falsy_field_is_refused UserDatabase.database
                            {| params_id := "";
                               body := [("username", JStr "bob");
                                        ("email", JStr "bob@example.org");
                                        ("password", JNum 0)] |} one_user "password" _) _)).
    + cbn. auto 7.
    + cbn. auto.
  - refine (proj1 (proj1 (proj2 (falsy_field_is_refused UserDatabase.database
                            {| params_id := "";
                               body := [("email", JStr "bob@example.org");
                                        ("password", JStr "")] |}
                            one_user "password" _)) _)).
    + cbn. auto 7.
    + cbn. auto.
Defined.

(** X7: on the update route a [findOne] that throws is answered 500 with
    the error whatever the body holds, a body with missing fields included;
    the error is written to the console and [update] is not called. *)
Theorem put_lookup_failure {S} (db : Database S) (req : Request) (s s1 : S) (e : JsValue) :
  findOne db (params_id req) s = (Throw e, s1) ->
  let out := serve db PUT_users_id req s in
  fst out = replied 500 (JObj [("error", e)])
  /\ events (snd out) = [Called (FindOne (params_id req)) (Throw e); Logged e]
  /\ store (snd out) = s1.
Proof. intros Hfind. cbv zeta. unfold_handlers. step Hfind. auto. Qed.

Lemma put_lookup_failure_witness :
  fst (serve (failing_database (JStr "disk")) PUT_users_id
         {| params_id := "0"; body := [] |} tt)
  = replied 500 (JObj [("error", JStr "disk")]).
Proof.
  refine (proj1 (put_lookup_failure (failing_database (JStr "disk"))
                   {| params_id := "0"; body := [] |} tt tt (JStr "disk") _)).
  reflexivity.
Defined.

(** X8: only the update route writes to the console, and only the error of
    a store call that threw; on that route every such error is written. *)
Theorem only_put_logs {S} (db : Database S) (r : Route) (req : Request) (s : S) :
  (forall v, In (Logged v) (events (snd (serve db r req s))) ->
             r = PUT_users_id /\ threw v (events (snd (serve db r req s))))
  /\ (forall e, r = PUT_users_id -> threw e (events (snd (serve db r req s))) ->
                In (Logged e) (events (snd (serve db r req s)))).
Proof.
  split.
  - intros v. destruct r; run_all; intros Hin; events_inv;
      repeat match goal with
        | H : Called _ _ = Logged _ |- _ => discriminate H
        | H : Logged _ = Logged _ |- _ => injection H as <-
        end;
      (split; [reflexivity | eexists; find_event]).
  - intros e ->. intros [o Hin]. revert Hin.
    run_all; intros Hin; events_inv; find_event.
Qed.

Lemma only_put_logs_witness :
  In (Logged (JStr "disk"))
    (events (snd (serve (failing_database (JStr "disk")) PUT_users_id ann tt))).
Proof.
  apply (proj2 (only_put_logs (failing_database (JStr "disk")) PUT_users_id ann tt)
           (JStr "disk") eq_refl).
  exists (FindOne ""). left. reflexivity.
Defined.

(** X9: every route always returns a response, and its status is one of
    the codes its handler names: 200, 404 or 500 on the list, by-id and
    delete routes; 201, 400 or 500 on register; 200, 400, 404 or 500 on
    login; 201, 401, 404 or 500 on update. *)
Theorem status_codes_by_route {S} (db : Database S) (r : Route) (req : Request) (s : S) :
  exists response,
    fst (serve db r req s) = Normal response
    /\ In (statusCode response) (statuses r).
Proof.
  destruct r; run_all; eexists; (split; [reflexivity |]); vm_compute; auto 6.
Qed.

(** X10: success is reported only after the mutation returned: a 201 of the
    register route follows a [create] of the body that returned the
    [newUser] of the payload, a 201 of the update route an [update] of the
    id with the body that returned the [updateUser] of the payload, and a
    200 of the delete route a [remove] of the id that returned. *)
Theorem success_follows_mutation {S} (db : Database S) (req : Request) (s : S)
    (response : Response) :
  (fst (serve db POST_register req s) = Normal response ->
   statusCode response = 201%Z ->
   exists newUser,
     In (Called (Create (JObj (body req))) (Normal newUser))
       (events (snd (serve db POST_register req s)))
     /\ payload response = JObj [("newUser", newUser)])
  /\ (fst (serve db PUT_users_id req s) = Normal response ->
      statusCode response = 201%Z ->
      exists updateUser,
        In (Called (Update (params_id req) (JObj (body req))) (Normal updateUser))
          (events (snd (serve db PUT_users_id req s)))
        /\ payload response = JObj [("updateUser", updateUser)])
  /\ (fst (serve db DELETE_users_id req s) = Normal response ->
      statusCode response = 200%Z ->
      exists result,
        In (Called (Remove (params_id req)) (Normal result))
          (events (snd (serve db DELETE_users_id req s)))).
Proof.
  split; [| split].
  - run_all; intros Hresp Hstatus; read_response Hresp Hstatus.
    eexists. split; [find_event | reflexivity].
  - run_all; intros Hresp Hstatus; read_response Hresp Hstatus.
    eexists. split; [find_event | reflexivity].
  - run_all; intros Hresp Hstatus; read_response Hresp Hstatus.
    eexists. find_event.
Qed.

Lemma success_follows_mutation_witness :
  (exists newUser,
     In (Called (Create (JObj (body ann))) (Normal newUser))
       (events (snd (serve UserDatabase.database POST_register ann ∅)))
     /\ JObj [("newUser", ann_record)] = JObj [("newUser", newUser)])
  /\ (exists result,
        In (Called (Remove "0") (Normal result))
          (events (snd (serve UserDatabase.database DELETE_users_id
                          {| params_id := "0"; body := [] |} one_user)))).
Proof.
  split.
  - exact (proj1 (success_follows_mutation UserDatabase.database ann ∅
                    {| statusCode := 201; payload := JObj [("newUser", ann_record)] |})
             eq_refl eq_refl).
  - exact (proj2 (proj2 (success_follows_mutation UserDatabase.database
                           {| params_id := "0"; body := [] |} one_user
                           {| statusCode := 200;
                              payload := JObj [("msg", JStr "User deleted")] |}))
             eq_refl eq_refl).
Defined.

(** X11: the login route answers 200 only when both checks passed: the run
    is a [findByEmail] of the body's email that returned a truthy user,
    then a [comparePassword] of that email and the body's password that
    returned a truthy value, and the payload is that user. *)
Theorem login_success_requires_match {S} (db : Database S) (req : Request) (s : S)
    (response : Response) :
  fst (serve db POST_login req s) = Normal response ->
  statusCode response = 200%Z ->
  exists user matches,
    events (snd (serve db POST_login req s))
    = [Called (FindByEmail (lookup_prop "email" (body req))) (Normal user);
       Called (ComparePassword (lookup_prop "email" (body req))
                 (lookup_prop "password" (body req))) (Normal matches)]
    /\ truthy user = true
    /\ truthy matches = true
    /\ missing "email" req = false
    /\ missing "password" req = false
    /\ payload response = JObj [("user", user)].
Proof.
  run_all; intros Hresp Hstatus; read_response Hresp Hstatus.
  truthy_of_tests.
  apply orb_false_iff in Htest as [Hemail Hpassword].
  do 2 eexists. split; [reflexivity |]. auto 6.
Qed.

Lemma login_success_requires_match_witness :
  exists user matches,
    events (snd (serve UserDatabase.database POST_login ann one_user))
    = [Called (FindByEmail (lookup_prop "email" (body ann))) (Normal user);
       Called (ComparePassword (lookup_prop "email" (body ann))
                 (lookup_prop "password" (body ann))) (Normal matches)]
    /\ truthy user = true
    /\ truthy matches = true
    /\ missing "email" ann = false
    /\ missing "password" ann = false
    /\ JObj [("user", ann_record)] = JObj [("user", user)].
Proof.
  exact (login_success_requires_match UserDatabase.database ann one_user
           {| statusCode := 200; payload := JObj [("user", ann_record)] |}
           eq_refl eq_refl).
Defined.

(** X12: a client-error answer (a status from 400 to 499) means the run
    called no mutating operation, on every route; the state of a store
    whose lookups are read-only is then as it was. *)
Theorem client_error_means_no_mutation {S} (db : Database S) (r : Route) (req : Request)
    (s : S) (response : Response) :
  fst (serve db r req s) = Normal response ->
  (400 <= statusCode response < 500)%Z ->
  Forall (fun o => mutating o = false) (calls (events (snd (serve db r req s))))
  /\ (read_only db -> store (snd (serve db r req s)) = s).
Proof.
  destruct r; run_all; intros Hresp Hstatus; injection Hresp as <-;
    cbn [statusCode] in Hstatus;
    unfold StatusCodes.OK, StatusCodes.CREATED, StatusCodes.INTERNAL_SERVER_ERROR in Hstatus;
    try lia;
    (split; [repeat constructor | intros Hro; lookups_keep_state Hro; reflexivity]).
Qed.

Lemma client_error_means_no_mutation_witness :
  store (snd (serve UserDatabase.database POST_register ann one_user)) = one_user
  /\ store (snd (serve UserDatabase.database PUT_users_id
                   {| params_id := "9"; body := body ann |} one_user)) = one_user.
Proof.
  split.
  - refine (proj2 (client_error_means_no_mutation UserDatabase.database POST_register
                     ann one_user
                     {| statusCode := 400;
                        payload := error_body "This email has already been registered.." |}
                     eq_refl _) UserDatabase_read_only).
    cbn. lia.
  - refine (proj2 (client_error_means_no_mutation UserDatabase.database PUT_users_id
                     {| params_id := "9"; body := body ann |} one_user
                     {| statusCode := 404; payload := error_body "No user with id 9" |}
                     eq_refl _) UserDatabase_read_only).
    cbn. lia.
Defined.
